(** * surface_creator: hematite slab generation and its description

    A shallow embedding of [surface_creator.py].  The script has one function,
    [surface_generator], which

    - loads the orthorhombic Fe2O3 cell from ["Fe2O3_orth.cif"],
    - translates a rhombohedral Miller index to the orthorhombic setting with
      an [if]/[elif] chain over four literal lists,
    - asks pymatgen's [SlabGenerator] for the candidate slabs,
    - computes two in-plane replication counts from the first slab's lattice,
    - and, for each slab, scales it, calls [get_orthogonal_c_slab] and writes
      a [.cif] file.

    The crystallography library (pymatgen) is not part of the script: it
    enters the model as the interface [Pymatgen].  Python floats
    are IEEE binary64 numbers and are modelled by [SpecFloat.spec_float] with
    precision 53 and maximal exponent 1024. *)

From Stdlib Require Import ZArith List String Ascii Bool Lia Permutation.
From Stdlib Require Import DecimalString DecimalZ DecimalNat SpecFloat.
Import ListNotations.
Local Open Scope Z_scope.

(** ** Miller indices *)

Module Miller.

(** A Miller index is a Python tuple [(h, k, l)] of integers. *)
Definition miller : Type := (Z * Z * Z)%type.

(** Tuple equality, the [==] that Python's [in] applies to list items. *)
Definition eqb (p q : miller) : bool :=
  let '(h, k, l) := p in
  let '(h', k', l') := q in
  (h =? h') && (k =? k') && (l =? l').

(** [x in xs] for a Python list [xs]. *)
Definition contains (x : miller) (xs : list miller) : bool :=
  existsb (eqb x) xs.

(** The index of the opposite face, [(-h, -k, -l)]. *)
Definition neg (p : miller) : miller :=
  let '(h, k, l) := p in (- h, - k, - l).

End Miller.

Import Miller.

(** ** The rhombohedral-to-orthorhombic translation (lines 64-76) *)

Definition plane_100 : list miller :=
  [(1,0,0); (0,1,0); (1,-1,0); (-1,0,0); (0,-1,0); (-1,1,0)].
Definition plane_001 : list miller :=
  [(0,0,1); (0,0,-1)].
Definition plane_110 : list miller :=
  [(1,1,0); (1,-2,0); (2,-1,0); (-1,-1,0); (-1,2,0); (-2,1,0)].
Definition plane_012 : list miller :=
  [(0,1,2); (1,-1,2); (-1,-1,2); (0,-2,-2); (-1,1,-2); (1,1,-2)].

(** The local variable [mil] after the [if]/[elif] chain.  The chain has no
    [else]: when no test succeeds nothing is assigned, and [mil] stays
    unbound, which is [None] here. *)
Definition mil (rhombohedral_miller : miller) : option miller :=
  if contains rhombohedral_miller plane_100 then Some (1,1,0)
  else if contains rhombohedral_miller plane_001 then Some (0,0,1)
  else if contains rhombohedral_miller plane_110 then Some (1,0,0)
  else if contains rhombohedral_miller plane_012 then Some (0,2,2)
  else None.

(** The same chain with the order of the tests as a parameter: the rows are
    tried from the head, and the first list that holds the index decides. *)
Fixpoint first_match (rows : list (list miller * miller)) (m : miller)
  : option miller :=
  match rows with
  | [] => None
  | (members, canonical) :: rest =>
      if contains m members then Some canonical else first_match rest m
  end.

(** The four rows in the order in which the script tests them. *)
Definition families : list (list miller * miller) :=
  [ (plane_100, (1,1,0)); (plane_001, (0,0,1));
    (plane_110, (1,0,0)); (plane_012, (0,2,2)) ].

Definition disjoint (xs ys : list miller) : Prop :=
  forall m, In m xs -> In m ys -> False.

Definition disjointb (xs ys : list miller) : bool :=
  forallb (fun m => negb (contains m ys)) xs.


(** ** Python values the script computes with *)

(** The exceptions a call can end with: the built-in ones that the
    statements of the script raise themselves, and whatever is raised inside
    a library call, kept apart from them and tagged with its class. *)
Inductive exn : Type :=
| UnboundLocalError   (* a local variable read before any assignment *)
| IndexError          (* [xs[0]] on an empty list *)
| ZeroDivisionError   (* float division by zero *)
| OverflowError       (* [int] of an infinity *)
| ValueError          (* [int] of a NaN *)
| LibraryError (class_name : string).  (* raised inside a pymatgen call *)

Module Float.

(** Python's [float] is IEEE binary64. *)
Definition prec : Z := 53.
Definition emax : Z := 1024.
Definition float : Type := spec_float.

(** The float nearest to [m * 2^e]; it is that number when it fits, which
    is how literals such as [21.0 = 21 * 2^0] and [7.5 = 15 * 2^-1] are
    written below. *)
Definition of_dyadic (m e : Z) : float := binary_normalize prec emax m e false.

Definition is_zero (x : float) : bool :=
  match x with S754_zero _ => true | _ => false end.

(** [x / y] on floats: a zero divisor raises, otherwise the quotient is
    rounded to the nearest float. *)
Definition truediv (x y : float) : exn + float :=
  if is_zero y then inl ZeroDivisionError else inr (SFdiv prec emax x y).

(** The integer nearest to [m / 2^k], the even one of the two when
    [m / 2^k] lies halfway ([0 <= m], [0 < k]). *)
Definition round_half_even (m k : Z) : Z :=
  let q := m / 2 ^ k in
  let r := m mod 2 ^ k in
  match 2 * r ?= 2 ^ k with
  | Lt => q
  | Gt => q + 1
  | Eq => if Z.even q then q else q + 1
  end.

(** [round(x, 0)]: infinities, NaN and zeros are returned as they are, a
    finite [x] becomes the float of the nearest integer, ties to even, with
    the sign of [x].  A float with a non-negative exponent is an integer
    already.  Otherwise the mantissa is below [2^53], so the rounded integer
    [n] is a binary64 number; it is returned as [n * 2^0]. *)
Definition round0 (x : float) : float :=
  match x with
  | S754_finite s m e =>
      if 0 <=? e then x
      else match round_half_even (Zpos m) (- e) with
           | Zpos n => S754_finite s n 0
           | _ => S754_zero s
           end
  | _ => x
  end.

(** [int(x)]: truncation towards zero; infinities and NaN raise. *)
Definition to_int (x : float) : exn + Z :=
  match x with
  | S754_nan => inl ValueError
  | S754_infinity _ => inl OverflowError
  | S754_zero _ => inr 0
  | S754_finite s m e =>
      inr (cond_Zopp s (if 0 <=? e then Zpos m * 2 ^ e
                        else Zpos m / 2 ^ (- e)))
  end.

(** A float that is finite and strictly positive. *)
Definition positive_finite (x : float) : Prop :=
  exists m e, x = S754_finite false m e.

(** [n] is an integer nearest to the finite float [x], that is
    [|n - x| <= 1/2], written without fractions: with [x = +-m * 2^e] and
    [e < 0] it reads [|n * 2^-e -+ m| * 2 <= 2^-e]. *)
Definition nearest_integer (x : float) (n : Z) : Prop :=
  match x with
  | S754_zero _ => n = 0
  | S754_finite s m e =>
      if 0 <=? e then n = cond_Zopp s (Zpos m * 2 ^ e)
      else 2 * Z.abs (n * 2 ^ (- e) - cond_Zopp s (Zpos m)) <= 2 ^ (- e)
  | _ => False
  end.

(** The sign bit of [x] is clear: [x] is [+0.0], positive, [+inf], or NaN. *)
Definition sign_clear (x : float) : Prop :=
  match x with
  | S754_zero s | S754_infinity s | S754_finite s _ _ => s = false
  | S754_nan => True
  end.

(** [x] lies halfway between [n] and a neighbour of [n]: [|n - x| = 1/2]. *)
Definition halfway (x : float) (n : Z) : Prop :=
  match x with
  | S754_finite s m e =>
      e < 0 /\ 2 * Z.abs (n * 2 ^ (- e) - cond_Zopp s (Zpos m)) = 2 ^ (- e)
  | _ => False
  end.

(** [n] is the integer nearest to the finite float [x], and the even one of
    the two when [x] lies halfway between two integers. *)
Definition nearest_even_integer (x : float) (n : Z) : Prop :=
  nearest_integer x n /\ (halfway x n -> Z.even n = true).

(** [1/2 < x] for a float [x]. *)
Definition above_half (x : float) : Prop :=
  match x with
  | S754_finite false m e =>
      if 0 <=? e then True else 2 ^ (- e) < 2 * Zpos m
  | S754_infinity false => True
  | _ => False
  end.

End Float.

Import Float.

(** ** Text of the output file names *)

Local Open Scope string_scope.

(** [str] of a Python integer. *)
Definition str_int (z : Z) : string := NilEmpty.string_of_int (Z.to_int z).

(** [str] of an index produced by [np.arange(0, n)]. *)
Definition str_index (i : nat) : string :=
  NilEmpty.string_of_uint (Nat.to_uint i).

(** [str] of a tuple of three integers, as in ["(1, -1, 0)"]. *)
Definition str_miller (p : miller) : string :=
  let '(h, k, l) := p in
  "(" ++ str_int h ++ ", " ++ str_int k ++ ", " ++ str_int l ++ ")".

(** The f-string [f'slab_{rhombohedral_miller}_{i}.cif'] of line 96. *)
Definition filename (rhombohedral_miller : miller) (i : nat) : string :=
  "slab_" ++ str_miller rhombohedral_miller ++ "_" ++ str_index i ++ ".cif".

Local Close Scope string_scope.

(** ** The crystallography library, as the script uses it *)

(** The keyword arguments of the [SlabGenerator(...)] call of lines 79-85. *)
Record SlabGeneratorArgs (Structure : Type) : Type := {
  initial_structure : Structure;
  miller_index : miller;
  min_slab_size : float;
  min_vacuum_size : float;
  center_slab : bool;
  lll_reduce : bool;
  primitive : bool
}.

Arguments initial_structure {Structure} _.
Arguments miller_index {Structure} _.
Arguments min_slab_size {Structure} _.
Arguments min_vacuum_size {Structure} _.
Arguments center_slab {Structure} _.
Arguments lll_reduce {Structure} _.
Arguments primitive {Structure} _.

(** What the script calls in pymatgen.  The library is taken as given: each
    operation is a function of its arguments.  Loading the cell and asking
    the generator are taken to succeed (an unreadable file ends the call
    before anything described here); the three calls of the loop body return
    or raise.

    - [from_file] is [Structure.from_file].
    - [get_slabs] is [SlabGenerator(...).get_slabs()]: the candidate slabs,
      one fresh object per termination, in the library's order.
    - [lattice_a], [lattice_b] are [s.lattice.a], [s.lattice.b].
    - [make_supercell] changes its receiver in place; the function gives the
      receiver after a call that returns.
    - [get_orthogonal_c_slab] leaves its receiver as it is and returns a new
      slab; the function gives the returned slab.
    - [make_supercell_raises s m], [get_orthogonal_c_slab_raises s] and
      [to_raises s path] tell whether [s.make_supercell(m)],
      [s.get_orthogonal_c_slab()] and [s.to(filename=path)] raise, and the
      class of the exception when they do.  (A scaling matrix with a zero
      count is singular, and [make_supercell] raises numpy's [LinAlgError]
      on it; [to] raises when the file cannot be written.) *)
Class Pymatgen (Structure Slab : Type) : Type := {
  from_file : string -> Structure;
  get_slabs : SlabGeneratorArgs Structure -> list Slab;
  lattice_a : Slab -> float;
  lattice_b : Slab -> float;
  make_supercell : Slab -> list Z -> Slab;
  get_orthogonal_c_slab : Slab -> Slab;
  make_supercell_raises : Slab -> list Z -> option string;
  get_orthogonal_c_slab_raises : Slab -> option string;
  to_raises : Slab -> string -> option string
}.

(** ** Effects: a log of library calls, and exceptions *)

(** One entry per library call made, in program order, whether the call
    returns or raises.  The slab-level calls record the position of their
    receiver in [slabs]; [Call_to] records the receiver as it is when it is
    written. *)
Inductive event (Structure Slab : Type) : Type :=
| Call_from_file (path : string)
| Call_SlabGenerator (args : SlabGeneratorArgs Structure)
| Call_get_slabs
| Call_make_supercell (i : nat) (scaling_matrix : list Z)
| Call_get_orthogonal_c_slab (i : nat)
| Call_to (i : nat) (path : string) (content : Slab).

Arguments Call_from_file {Structure Slab} _.
Arguments Call_SlabGenerator {Structure Slab} _.
Arguments Call_get_slabs {Structure Slab}.
Arguments Call_make_supercell {Structure Slab} _ _.
Arguments Call_get_orthogonal_c_slab {Structure Slab} _.
Arguments Call_to {Structure Slab} _ _ _.

(** A computation takes the log so far and gives a value or an exception,
    and the extended log. *)
Definition M (Structure Slab A : Type) : Type :=
  list (event Structure Slab) -> (exn + A) * list (event Structure Slab).

Definition ret {Structure Slab A : Type} (a : A) : M Structure Slab A :=
  fun log => (inr a, log).

Definition bind {Structure Slab A B : Type}
  (c : M Structure Slab A) (k : A -> M Structure Slab B) : M Structure Slab B :=
  fun log =>
    match c log with
    | (inl e, log') => (inl e, log')
    | (inr a, log') => k a log'
    end.

(** A pure step that may raise. *)
Definition lift {Structure Slab A : Type} (r : exn + A) : M Structure Slab A :=
  fun log => (r, log).

Definition emit {Structure Slab : Type} (ev : event Structure Slab)
  : M Structure Slab unit :=
  fun log => (inr tt, log ++ [ev]).

(** A library call: it is logged, and then it returns or raises. *)
Definition library_call {Structure Slab : Type} (ev : event Structure Slab)
  (raises : option string) : M Structure Slab unit :=
  bind (emit ev)
       (fun _ => lift match raises with
                      | Some class_name => inl (LibraryError class_name)
                      | None => inr tt
                      end).

Declare Scope py_scope.
Delimit Scope py_scope with py.
Notation "x <- c ;; k" := (bind c (fun x => k))
  (at level 61, c at next level, right associativity) : py_scope.
Notation "c ;; k" := (bind c (fun _ => k))
  (at level 61, right associativity) : py_scope.

(** [for x in xs: body]. *)
Fixpoint for_each {Structure Slab A : Type}
  (xs : list A) (body : A -> M Structure Slab unit) : M Structure Slab unit :=
  match xs with
  | [] => ret tt
  | x :: rest => bind (body x) (fun _ => for_each rest body)
  end.

(** Reading a local variable: unbound raises [UnboundLocalError]. *)
Definition read_local {A : Type} (v : option A) : exn + A :=
  match v with
  | Some a => inr a
  | None => inl UnboundLocalError
  end.

(** [xs[0]]. *)
Definition getitem0 {A : Type} (xs : list A) : exn + A :=
  match xs with
  | [] => inl IndexError
  | x :: _ => inr x
  end.

(** [zip(xs, np.arange(0, len(xs)))]. *)
Definition zip_arange {A : Type} (xs : list A) : list (A * nat) :=
  combine xs (seq 0 (List.length xs)).

(** ** The script *)

Section Pipeline.

Context {Structure Slab : Type} {lib : Pymatgen Structure Slab}.

Local Open Scope py_scope.

(** [int(round(extent / slabs[0].lattice.x, 0))], the expression of lines
    90 and 91, for [extent] the requested width or depth and [x] the lattice
    length [a] or [b].  Python evaluates the subscript, then the division,
    then [round], then [int]. *)
Definition mult (extent : float) (slabs : list Slab)
  (lattice_x : Slab -> float) : exn + Z :=
  match getitem0 slabs with
  | inl e => inl e
  | inr s0 =>
      match truediv extent (lattice_x s0) with
      | inl e => inl e
      | inr q => to_int (round0 q)
      end
  end.

(** The body of the [for] loop, lines 94-96.  The second call returns a
    slab that the script does not bind; [s], which [make_supercell] has
    changed, is what [to] writes.  An exception raised by one of the three
    calls leaves the loop and ends the function. *)
Definition export_slab (rhombohedral_miller : miller) (mult_a mult_b : Z)
  (si : Slab * nat) : M Structure Slab unit :=
  let '(s, i) := si in
  let scaling_matrix := [mult_a; mult_b; 1] in
  library_call (Call_make_supercell i scaling_matrix)
               (make_supercell_raises s scaling_matrix) ;;
  let s := make_supercell s scaling_matrix in
  library_call (Call_get_orthogonal_c_slab i)
               (get_orthogonal_c_slab_raises s) ;;
  let _ := get_orthogonal_c_slab s in
  library_call (Call_to i (filename rhombohedral_miller i) s)
               (to_raises s (filename rhombohedral_miller i)).

Definition surface_generator
  (thickness width depth : float) (rhombohedral_miller : miller)
  (padding : float) : M Structure Slab unit :=
  emit (Call_from_file "Fe2O3_orth.cif") ;;
  let fe2o3 := from_file "Fe2O3_orth.cif" in
  let mil := mil rhombohedral_miller in
  mil <- lift (read_local mil) ;;
  let args := {| initial_structure := fe2o3;
                 miller_index := mil;
                 min_slab_size := thickness;
                 min_vacuum_size := padding;
                 center_slab := true;
                 lll_reduce := true;
                 primitive := false |} in
  emit (Call_SlabGenerator args) ;;
  emit Call_get_slabs ;;
  let slabs := get_slabs args in
  mult_a <- lift (mult width slabs lattice_a) ;;
  mult_b <- lift (mult depth slabs lattice_b) ;;
  for_each (zip_arange slabs) (export_slab rhombohedral_miller mult_a mult_b).

(** One call of the function, from an empty log. *)
Definition run (thickness width depth : float) (rhombohedral_miller : miller)
  (padding : float) : (exn + unit) * list (event Structure Slab) :=
  surface_generator thickness width depth rhombohedral_miller padding [].

(** The files a log writes, in order.  A [to] that raises is among them:
    what it leaves of its file is not known. *)
Definition files_written (log : list (event Structure Slab))
  : list (string * Slab) :=
  flat_map (fun ev => match ev with
                      | Call_to _ path content => [(path, content)]
                      | _ => []
                      end) log.

(** The scaling matrices a log passes to [make_supercell], with the position
    of the slab they are applied to. *)
Definition scalings_applied (log : list (event Structure Slab))
  : list (nat * list Z) :=
  flat_map (fun ev => match ev with
                      | Call_make_supercell i sm => [(i, sm)]
                      | _ => []
                      end) log.

(** The argument records with which a log constructs a [SlabGenerator]. *)
Definition generator_calls (log : list (event Structure Slab))
  : list (SlabGeneratorArgs Structure) :=
  flat_map (fun ev => match ev with
                      | Call_SlabGenerator args => [args]
                      | _ => []
                      end) log.

(** The argument record of the [SlabGenerator] call for the translated
    index [mil]. *)
Definition requested_args (thickness padding : float) (mil : miller)
  : SlabGeneratorArgs Structure :=
  {| initial_structure := from_file "Fe2O3_orth.cif";
     miller_index := mil;
     min_slab_size := thickness;
     min_vacuum_size := padding;
     center_slab := true;
     lll_reduce := true;
     primitive := false |}.

(** The log entries of one pass through the loop body in which no call
    raises. *)
Definition slab_events (rhombohedral_miller : miller) (mult_a mult_b : Z)
  (si : Slab * nat) : list (event Structure Slab) :=
  [ Call_make_supercell (snd si) [mult_a; mult_b; 1];
    Call_get_orthogonal_c_slab (snd si);
    Call_to (snd si) (filename rhombohedral_miller (snd si))
            (make_supercell (fst si) [mult_a; mult_b; 1]) ].

(** The first call of a pass through the loop body that raises, if one
    does: its position among the three calls and the class it raises. *)
Definition first_raise (rhombohedral_miller : miller) (mult_a mult_b : Z)
  (si : Slab * nat) : option (nat * string) :=
  let scaling_matrix := [mult_a; mult_b; 1] in
  let s := make_supercell (fst si) scaling_matrix in
  match make_supercell_raises (fst si) scaling_matrix with
  | Some class_name => Some (1%nat, class_name)
  | None =>
      match get_orthogonal_c_slab_raises s with
      | Some class_name => Some (2%nat, class_name)
      | None =>
          match to_raises s (filename rhombohedral_miller (snd si)) with
          | Some class_name => Some (3%nat, class_name)
          | None => None
          end
      end
  end.

(** No call of the pass for [si] raises. *)
Definition calls_return (rhombohedral_miller : miller) (mult_a mult_b : Z)
  (si : Slab * nat) : Prop :=
  first_raise rhombohedral_miller mult_a mult_b si = None.

(** What the loop over [xs] does: how it ends and what it logs. *)
Fixpoint loop_outcome (rhombohedral_miller : miller) (mult_a mult_b : Z)
  (xs : list (Slab * nat)) : (exn + unit) * list (event Structure Slab) :=
  match xs with
  | [] => (inr tt, [])
  | si :: rest =>
      match first_raise rhombohedral_miller mult_a mult_b si with
      | Some (j, class_name) =>
          (inl (LibraryError class_name),
           firstn j (slab_events rhombohedral_miller mult_a mult_b si))
      | None =>
          let '(r, evs) :=
            loop_outcome rhombohedral_miller mult_a mult_b rest in
          (r, slab_events rhombohedral_miller mult_a mult_b si ++ evs)
      end
  end.

End Pipeline.

(** ** A small library instance to run the script on *)

(** A slab reduced to what the script can observe: its two in-plane lattice
    lengths, whether its [c] vector is orthogonal to the surface, and the
    scaling matrices applied to it so far. *)
Record TestSlab : Type := {
  a : float;
  b : float;
  c_orthogonal : bool;
  scaled_by : list (list Z)
}.

(** The library that returns [slabs] for every request.  Scaling by a
    matrix with a zero count raises [LinAlgError]; the other calls return. *)
Definition test_lib (slabs : list TestSlab) : Pymatgen unit TestSlab := {|
  from_file := fun _ => tt;
  get_slabs := fun _ => slabs;
  lattice_a := a;
  lattice_b := b;
  make_supercell := fun s sm =>
    {| a := a s; b := b s; c_orthogonal := c_orthogonal s;
       scaled_by := scaled_by s ++ [sm] |};
  get_orthogonal_c_slab := fun s =>
    {| a := a s; b := b s; c_orthogonal := true; scaled_by := scaled_by s |};
  make_supercell_raises := fun _ sm =>
    if existsb (Z.eqb 0) sm then Some "LinAlgError"%string else None;
  get_orthogonal_c_slab_raises := fun _ => None;
  to_raises := fun _ _ => None
|}.

(** A slab with lattice lengths [5.0] and [4.0] and a tilted [c] vector. *)
Definition slab_5_4 : TestSlab :=
  {| a := of_dyadic 5 0; b := of_dyadic 4 0;
     c_orthogonal := false; scaled_by := [] |}.

(** A slab with lattice lengths [10.0] and [8.0]. *)
Definition slab_10_8 : TestSlab :=
  {| a := of_dyadic 10 0; b := of_dyadic 8 0;
     c_orthogonal := false; scaled_by := [] |}.

(** The float arguments of the test calls: [10.0], [21.0], [7.5], [1.0]. *)
Definition f_10 : float := of_dyadic 10 0.
Definition f_21 : float := of_dyadic 21 0.
Definition f_7_5 : float := of_dyadic 15 (-1).
Definition f_1 : float := of_dyadic 1 0.

(** [surface_generator(10.0, width, 7.5, rhombohedral_miller, 1.0)] against
    [test_lib slabs]. *)
Definition test_run (slabs : list TestSlab) (width : float)
  (rhombohedral_miller : miller)
  : (exn + unit) * list (event unit TestSlab) :=
  @run unit TestSlab (test_lib slabs) f_10 width f_7_5 rhombohedral_miller f_1.

(** ** The library with another re-orthogonalization *)

(** [lib] with [f] for the slab that [get_orthogonal_c_slab] returns. *)
Definition with_get_orthogonal_c_slab {Structure Slab : Type}
  (lib : Pymatgen Structure Slab) (f : Slab -> Slab)
  : Pymatgen Structure Slab :=
  {| from_file := @from_file _ _ lib;
     get_slabs := @get_slabs _ _ lib;
     lattice_a := @lattice_a _ _ lib;
     lattice_b := @lattice_b _ _ lib;
     make_supercell := @make_supercell _ _ lib;
     get_orthogonal_c_slab := f;
     make_supercell_raises := @make_supercell_raises _ _ lib;
     get_orthogonal_c_slab_raises := @get_orthogonal_c_slab_raises _ _ lib;
     to_raises := @to_raises _ _ lib |}.

(** ** Characters of a string *)

(** Whether the character [c] occurs in [s]. *)
Fixpoint occurs (c : ascii) (s : string) : bool :=
  match s with
  | EmptyString => false
  | String d rest => Ascii.eqb c d || occurs c rest
  end.

(** * Facts *)

(** ** The definitions on small inputs *)

Example mil_1_m1_0 : mil (1,-1,0) = Some (1,1,0).
Proof. reflexivity. Qed.

Example mil_1_1_1 : mil (1,1,1) = None.
Proof. reflexivity. Qed.

Example filename_1_m1_0_3 :
  filename (1,-1,0) 3 = "slab_(1, -1, 0)_3.cif"%string.
Proof. reflexivity. Qed.

Example filename_0_0_1_12 :
  filename (0,0,1) 12 = "slab_(0, 0, 1)_12.cif"%string.
Proof. reflexivity. Qed.

(** [21.0 / 5.0] is the float nearest to 4.2, and [round] makes it [4.0]. *)
Example truediv_21_5 :
  truediv f_21 (of_dyadic 5 0)
  = inr (S754_finite false 4728779608739021 (-50)).
Proof. vm_compute. reflexivity. Qed.

Example round0_4_2 :
  round0 (S754_finite false 4728779608739021 (-50)) = S754_finite false 4 0.
Proof. vm_compute. reflexivity. Qed.

(** Ties go to the even neighbour: [round(0.5, 0) = 0.0],
    [round(1.5, 0) = 2.0], [round(2.5, 0) = 2.0], [round(-3.5, 0) = -4.0]. *)
Example round0_ties :
  to_int (round0 (of_dyadic 1 (-1))) = inr 0 /\
  to_int (round0 (of_dyadic 3 (-1))) = inr 2 /\
  to_int (round0 (of_dyadic 5 (-1))) = inr 2 /\
  to_int (round0 (of_dyadic (-7) (-1))) = inr (-4).
Proof. repeat split. Qed.

Example truediv_by_zero :
  truediv f_21 (S754_zero false) = inl ZeroDivisionError.
Proof. reflexivity. Qed.

Example to_int_infinity :
  to_int (round0 (S754_infinity false)) = inl OverflowError.
Proof. reflexivity. Qed.

(** ** Membership tests *)

Lemma miller_eqb_eq (p q : miller) : Miller.eqb p q = true <-> p = q.
Proof.
  destruct p as [[h k] l], q as [[h' k'] l']; simpl.
  rewrite !andb_true_iff, !Z.eqb_eq.
  split; [intros [[-> ->] ->]; reflexivity | intros [= -> -> ->]; auto].
Qed.

Lemma contains_In (x : miller) (xs : list miller) :
  contains x xs = true <-> In x xs.
Proof.
  unfold contains. rewrite existsb_exists. split.
  - intros [y [Hy E]]. apply miller_eqb_eq in E. now subst.
  - intros H. exists x. split; [assumption | now apply miller_eqb_eq].
Qed.

Lemma contains_not_In (x : miller) (xs : list miller) :
  contains x xs = false <-> ~ In x xs.
Proof.
  rewrite <- contains_In. destruct (contains x xs); intuition congruence.
Qed.

Lemma disjointb_sound (xs ys : list miller) :
  disjointb xs ys = true -> disjoint xs ys.
Proof.
  unfold disjointb, disjoint. rewrite forallb_forall.
  intros H m Hx Hy. specialize (H m Hx).
  apply contains_In in Hy. rewrite Hy in H. discriminate.
Qed.

(** ** The translation chain *)

Lemma mil_first_match (m : miller) : mil m = first_match families m.
Proof. reflexivity. Qed.

(** A row that answers is a row of the table that holds the index. *)
Lemma first_match_Some rows m c :
  first_match rows m = Some c ->
  exists members, In (members, c) rows /\ In m members.
Proof.
  induction rows as [|[members canonical] rest IH]; simpl; [discriminate|].
  destruct (contains m members) eqn:E.
  - intros [= <-]. exists members. split; [now left | now apply contains_In].
  - intros H. destruct (IH H) as [mem [Hin Hm]]. exists mem. auto.
Qed.

(** No answer means that no row holds the index. *)
Lemma first_match_None rows m :
  first_match rows m = None ->
  forall members c, In (members, c) rows -> ~ In m members.
Proof.
  induction rows as [|[members canonical] rest IH]; simpl; [tauto|].
  destruct (contains m members) eqn:E; [discriminate|].
  intros H mem c [[= <- <-]|Hin].
  - now apply contains_not_In.
  - eapply IH; eauto.
Qed.

Lemma families_disjoint :
  disjoint plane_100 plane_001 /\ disjoint plane_100 plane_110 /\
  disjoint plane_100 plane_012 /\ disjoint plane_001 plane_110 /\
  disjoint plane_001 plane_012 /\ disjoint plane_110 plane_012.
Proof. repeat split; apply disjointb_sound; reflexivity. Qed.

(** Two rows of the table that hold the same index are the same row. *)
Lemma families_functional m mem1 c1 mem2 c2 :
  In (mem1, c1) families -> In (mem2, c2) families ->
  In m mem1 -> In m mem2 -> (mem1, c1) = (mem2, c2).
Proof.
  destruct families_disjoint as (D1 & D2 & D3 & D4 & D5 & D6).
  unfold families. simpl.
  intros H1 H2 M1 M2.
  repeat match goal with
         | H : _ \/ _ |- _ => destruct H
         | H : False |- _ => destruct H
         | H : (_, _) = (_, _) |- _ => injection H as <- <-
         end;
    try reflexivity; exfalso;
    first [ apply (D1 m); assumption | apply (D2 m); assumption
          | apply (D3 m); assumption | apply (D4 m); assumption
          | apply (D5 m); assumption | apply (D6 m); assumption ].
Qed.

(** C1.  Every member of a family is translated to the canonical index of
    that family: the members of [plane_100] to (1,1,0), of [plane_001] to
    (0,0,1), of [plane_110] to (1,0,0) and of [plane_012] to (0,2,2). *)
Theorem family_members_map_to_canonical (m : miller)
  (members : list miller) (canonical : miller) :
  In (members, canonical)
     [ (plane_100, (1,1,0)); (plane_001, (0,0,1));
       (plane_110, (1,0,0)); (plane_012, (0,2,2)) ] ->
  In m members ->
  mil m = Some canonical.
Proof.
  intros Hrow Hm.
  destruct (mil m) as [c|] eqn:E.
  - rewrite mil_first_match in E.
    destruct (first_match_Some _ _ _ E) as [mem [Hin Hmem]].
    pose proof (families_functional m _ _ _ _ Hrow Hin Hm Hmem) as [= _ ->].
    reflexivity.
  - rewrite mil_first_match in E.
    exfalso. exact (first_match_None _ _ E _ _ Hrow Hm).
Qed.

Lemma family_members_map_to_canonical_witness :
  mil (-1,1,0) = Some (1,1,0) /\ mil (0,0,-1) = Some (0,0,1) /\
  mil (2,-1,0) = Some (1,0,0) /\ mil (0,-2,-2) = Some (0,2,2).
Proof.
  split; [|split; [|split]].
  - apply (family_members_map_to_canonical (-1,1,0) plane_100 (1,1,0));
      simpl; auto 10.
  - apply (family_members_map_to_canonical (0,0,-1) plane_001 (0,0,1));
      simpl; auto 10.
  - apply (family_members_map_to_canonical (2,-1,0) plane_110 (1,0,0));
      simpl; auto 10.
  - apply (family_members_map_to_canonical (0,-2,-2) plane_012 (0,2,2));
      simpl; auto 10.
Defined.

(** The three families without an index 2 hold the opposite of each of
    their members, which the chain translates alike. *)
Lemma mil_neg_of_100_001_110 (m : miller) :
  In m (plane_100 ++ plane_001 ++ plane_110) -> mil (neg m) = mil m.
Proof.
  simpl. intros H.
  repeat (destruct H as [<-|H]; [reflexivity|]). destruct H.
Qed.

(** The pairs of opposite indices that [plane_012] holds. *)
Lemma mil_neg_in_012 :
  mil (neg (1,-1,2)) = mil (1,-1,2) /\ mil (neg (-1,1,-2)) = mil (-1,1,-2) /\
  mil (neg (-1,-1,2)) = mil (-1,-1,2) /\ mil (neg (1,1,-2)) = mil (1,1,-2).
Proof. repeat split. Qed.

(** C9, evaluated.  [plane_012] holds (0,1,2) and (0,-2,-2) but neither
    (0,-1,-2) nor (0,2,2): the chain translates (0,1,2) and (0,-2,-2) to
    (0,2,2) and leaves [mil] unbound at their opposites. *)
Theorem plane_012_not_closed_under_negation :
  mil (0,1,2) = Some (0,2,2) /\ mil (neg (0,1,2)) = None /\
  mil (0,-2,-2) = Some (0,2,2) /\ mil (neg (0,-2,-2)) = None.
Proof. repeat split. Qed.

(** C10.  The four lists are pairwise disjoint; hence the translation does
    not depend on the order of the tests (any permutation [rows] of the
    table gives the value of the chain), and an index that is translated
    lies in exactly one family. *)
Theorem families_disjoint_order_irrelevant
  (m : miller) (rows : list (list miller * miller)) :
  Permutation families rows ->
  (disjoint plane_100 plane_001 /\ disjoint plane_100 plane_110 /\
   disjoint plane_100 plane_012 /\ disjoint plane_001 plane_110 /\
   disjoint plane_001 plane_012 /\ disjoint plane_110 plane_012) /\
  first_match rows m = mil m /\
  (forall c, mil m = Some c ->
     exists members,
       In (members, c) families /\ In m members /\
       forall members' c',
         In (members', c') families -> In m members' ->
         (members', c') = (members, c)).
Proof.
  intros P. split; [exact families_disjoint|]. split.
  - rewrite mil_first_match.
    destruct (first_match rows m) as [c|] eqn:E1;
      destruct (first_match families m) as [c'|] eqn:E2; try reflexivity.
    + destruct (first_match_Some _ _ _ E1) as [mem1 [I1 M1]].
      destruct (first_match_Some _ _ _ E2) as [mem2 [I2 M2]].
      apply (Permutation_in _ (Permutation_sym P)) in I1.
      pose proof (families_functional m _ _ _ _ I1 I2 M1 M2) as [= _ ->].
      reflexivity.
    + destruct (first_match_Some _ _ _ E1) as [mem1 [I1 M1]].
      apply (Permutation_in _ (Permutation_sym P)) in I1.
      exfalso. exact (first_match_None _ _ E2 _ _ I1 M1).
    + destruct (first_match_Some _ _ _ E2) as [mem2 [I2 M2]].
      apply (Permutation_in _ P) in I2.
      exfalso. exact (first_match_None _ _ E1 _ _ I2 M2).
  - intros c E. rewrite mil_first_match in E.
    destruct (first_match_Some _ _ _ E) as [mem [I M]].
    exists mem. repeat split; try assumption.
    intros mem' c' I' M'.
    exact (families_functional m _ _ _ _ I' I M' M).
Qed.

Lemma families_disjoint_order_irrelevant_witness :
  first_match (rev families) (1,-2,0) = mil (1,-2,0).
Proof.
  apply (families_disjoint_order_irrelevant (1,-2,0) (rev families)).
  apply Permutation_rev.
Defined.

(** ** The run of the script *)

Section PipelineFacts.

Context {Structure Slab : Type} {lib : Pymatgen Structure Slab}.

(** One pass through the loop body: all three calls, or the calls up to
    the first that raises. *)
Lemma export_slab_outcome m ma mb (si : Slab * nat)
  (log : list (event Structure Slab)) :
  export_slab m ma mb si log
  = match first_raise m ma mb si with
    | Some (j, class_name) =>
        (inl (LibraryError class_name),
         log ++ firstn j (slab_events m ma mb si))
    | None => (inr tt, log ++ slab_events m ma mb si)
    end.
Proof.
  destruct si as [s i].
  unfold export_slab, first_raise, library_call, bind, emit, lift, slab_events.
  cbn [fst snd].
  destruct (make_supercell_raises s [ma; mb; 1]); [reflexivity|].
  destruct (get_orthogonal_c_slab_raises (make_supercell s [ma; mb; 1]));
    [now rewrite <- app_assoc|].
  destruct (to_raises (make_supercell s [ma; mb; 1]) (filename m i));
    now rewrite <- !app_assoc.
Qed.

(** The loop appends what [loop_outcome] lists and ends as it says. *)
Lemma for_each_export_slab m ma mb (xs : list (Slab * nat))
  (log : list (event Structure Slab)) :
  for_each xs (export_slab m ma mb) log
  = (fst (loop_outcome m ma mb xs), log ++ snd (loop_outcome m ma mb xs)).
Proof.
  revert log. induction xs as [|si rest IH]; intros log; cbn [for_each].
  - unfold ret. cbn. now rewrite app_nil_r.
  - unfold bind. rewrite export_slab_outcome. cbn [loop_outcome].
    destruct (first_raise m ma mb si) as [[j c]|]; [reflexivity|].
    rewrite IH. destruct (loop_outcome m ma mb rest) as [r evs].
    cbn [fst snd]. now rewrite app_assoc.
Qed.

(** When no call raises, the loop returns and logs every pass in full. *)
Lemma loop_outcome_return m ma mb (xs : list (Slab * nat)) :
  (forall si, In si xs -> calls_return m ma mb si) ->
  loop_outcome m ma mb xs = (inr tt, flat_map (slab_events m ma mb) xs).
Proof.
  induction xs as [|si rest IH]; intros H; [reflexivity|].
  cbn [loop_outcome flat_map].
  rewrite (H si (or_introl eq_refl)).
  rewrite IH by (intros; apply H; now right). reflexivity.
Qed.

(** The loop ends normally or with an exception of a library call. *)
Lemma loop_outcome_result m ma mb (xs : list (Slab * nat)) :
  fst (loop_outcome m ma mb xs) = inr tt \/
  exists class_name,
    fst (loop_outcome m ma mb xs) = inl (LibraryError class_name).
Proof.
  induction xs as [|si rest IH]; [now left|]. cbn [loop_outcome].
  destruct (first_raise m ma mb si) as [[j c]|];
    [right; exists c; reflexivity|].
  destruct (loop_outcome m ma mb rest) as [r evs]. exact IH.
Qed.

Lemma first_raise_position m ma mb (si : Slab * nat) j class_name :
  first_raise m ma mb si = Some (j, class_name) ->
  j = 1%nat \/ j = 2%nat \/ j = 3%nat.
Proof.
  unfold first_raise.
  destruct (make_supercell_raises _ _); [intros [= <- _]; auto|].
  destruct (get_orthogonal_c_slab_raises _); [intros [= <- _]; auto|].
  destruct (to_raises _ _); [intros [= <- _]; auto|discriminate].
Qed.

(** An index outside the four lists: the read of [mil] in the argument list
    of line 80 raises, after the cell has been loaded and before anything
    else is called. *)
Lemma run_unbound thickness width depth m padding :
  mil m = None ->
  run thickness width depth m padding
  = (inl UnboundLocalError, [Call_from_file "Fe2O3_orth.cif"]).
Proof.
  intros E. unfold run, surface_generator, bind, emit, lift. simpl.
  rewrite E. reflexivity.
Qed.

(** An index of the four lists: the run up to the loop, and the loop. *)
Lemma run_bound thickness width depth m padding c :
  mil m = Some c ->
  let args := requested_args thickness padding c in
  let pre := [ Call_from_file "Fe2O3_orth.cif";
               Call_SlabGenerator args; Call_get_slabs ] in
  run thickness width depth m padding
  = match mult width (get_slabs args) lattice_a with
    | inl e => (inl e, pre)
    | inr ma =>
        match mult depth (get_slabs args) lattice_b with
        | inl e => (inl e, pre)
        | inr mb =>
            (fst (loop_outcome m ma mb (zip_arange (get_slabs args))),
             pre ++ snd (loop_outcome m ma mb (zip_arange (get_slabs args))))
        end
    end.
Proof.
  intros E args pre.
  unfold run, surface_generator, bind, emit, lift. simpl.
  rewrite E. simpl. fold (requested_args thickness padding c). fold args.
  destruct (mult width (get_slabs args) lattice_a) as [e|ma]; [reflexivity|].
  destruct (mult depth (get_slabs args) lattice_b) as [e|mb]; [reflexivity|].
  rewrite for_each_export_slab. reflexivity.
Qed.

Lemma files_written_app (l1 l2 : list (event Structure Slab)) :
  files_written (l1 ++ l2) = files_written l1 ++ files_written l2.
Proof. apply flat_map_app. Qed.


Lemma generator_calls_app (l1 l2 : list (event Structure Slab)) :
  generator_calls (l1 ++ l2) = generator_calls l1 ++ generator_calls l2.
Proof. apply flat_map_app. Qed.

Lemma files_written_loop m ma mb (xs : list (Slab * nat)) :
  files_written (flat_map (slab_events m ma mb) xs)
  = map (fun si => (filename m (snd si),
                    make_supercell (fst si) [ma; mb; 1])) xs.
Proof.
  induction xs as [|si rest IH]; [reflexivity|].
  simpl. unfold files_written in *. simpl. now rewrite IH.
Qed.

(** The loop builds no generator. *)
Lemma generator_calls_loop_outcome m ma mb (xs : list (Slab * nat)) :
  generator_calls (snd (loop_outcome m ma mb xs)) = [].
Proof.
  induction xs as [|si rest IH]; [reflexivity|]. cbn [loop_outcome].
  destruct (first_raise m ma mb si) as [[j c]|] eqn:F.
  - destruct (first_raise_position _ _ _ _ _ _ F) as [ -> | [ -> | -> ] ];
      reflexivity.
  - destruct (loop_outcome m ma mb rest) as [r evs]. cbn [snd] in *.
    rewrite generator_calls_app, IH. reflexivity.
Qed.


(** The files of the loop are those of a front part of the slabs, in
    order: of all of them when the loop returns. *)
Lemma files_written_loop_outcome m ma mb (xs : list (Slab * nat)) :
  exists k,
    (k <= List.length xs)%nat /\
    files_written (snd (loop_outcome m ma mb xs))
    = map (fun si => (filename m (snd si),
                      make_supercell (fst si) [ma; mb; 1])) (firstn k xs) /\
    (fst (loop_outcome m ma mb xs) = inr tt -> k = List.length xs).
Proof.
  induction xs as [|si rest IH].
  - exists 0%nat. cbn. auto.
  - cbn [loop_outcome].
    destruct (first_raise m ma mb si) as [[j c]|] eqn:F.
    + destruct (first_raise_position _ _ _ _ _ _ F) as [ -> | [ -> | -> ] ].
      * exists 0%nat. cbn. split; [lia|]. split; [reflexivity|discriminate].
      * exists 0%nat. cbn. split; [lia|]. split; [reflexivity|discriminate].
      * exists 1%nat. cbn. split; [lia|]. split; [reflexivity|discriminate].
    + destruct IH as (k & Hk & Hs & Hr).
      destruct (loop_outcome m ma mb rest) as [r evs]. cbn [fst snd] in *.
      exists (S k). cbn [List.length firstn map].
      split; [lia|]. split; [|intros E; f_equal; auto].
      rewrite files_written_app, Hs. reflexivity.
Qed.

Lemma zip_arange_length (xs : list Slab) :
  List.length (zip_arange xs) = List.length xs.
Proof.
  unfold zip_arange. rewrite length_combine, length_seq. apply Nat.min_id.
Qed.

Lemma zip_arange_snd (xs : list Slab) :
  map snd (zip_arange xs) = seq 0 (List.length xs).
Proof.
  unfold zip_arange. generalize 0%nat.
  induction xs as [|x rest IH]; intros k; simpl; [reflexivity|].
  now rewrite IH.
Qed.

Lemma zip_arange_fst (xs : list Slab) : map fst (zip_arange xs) = xs.
Proof.
  unfold zip_arange. generalize 0%nat.
  induction xs as [|x rest IH]; intros k; simpl; [reflexivity|].
  now rewrite IH.
Qed.

Lemma firstn_seq_le (k start len : nat) :
  (k <= len)%nat -> firstn k (seq start len) = seq start k.
Proof.
  revert start len. induction k as [|k IH]; intros start [|len] H;
    cbn; try reflexivity; try lia.
  f_equal. apply IH. lia.
Qed.

(** The indices of a front part of the zipped slabs. *)
Lemma zip_arange_firstn_snd (xs : list Slab) (k : nat) :
  (k <= List.length xs)%nat ->
  map snd (firstn k (zip_arange xs)) = seq 0 k.
Proof.
  intros H. rewrite <- firstn_map, zip_arange_snd.
  now apply firstn_seq_le.
Qed.

End PipelineFacts.

(** ** File names *)

Lemma string_length_append (s t : string) :
  String.length (s ++ t) = (String.length s + String.length t)%nat.
Proof. induction s as [|ch s IH]; simpl; [reflexivity | now rewrite IH]. Qed.

Lemma string_append_inj_l (p s t : string) :
  (p ++ s = p ++ t)%string -> s = t.
Proof. induction p as [|ch p IH]; simpl; [auto | intros [= H]; auto]. Qed.

Lemma string_append_inj_r (s t u : string) :
  (s ++ u = t ++ u)%string -> s = t.
Proof.
  revert t. induction s as [|ch s IH]; intros [|ch' t]; simpl; intros H.
  - reflexivity.
  - apply (f_equal String.length) in H. simpl in H.
    rewrite string_length_append in H. lia.
  - apply (f_equal String.length) in H. simpl in H.
    rewrite string_length_append in H. lia.
  - injection H as -> H. f_equal. now apply IH.
Qed.

Lemma str_index_inj (i j : nat) : str_index i = str_index j -> i = j.
Proof.
  unfold str_index. intros H.
  apply (f_equal NilEmpty.uint_of_string) in H.
  rewrite !NilEmpty.usu in H. injection H as H.
  apply (f_equal Nat.of_uint) in H.
  now rewrite !DecimalNat.Unsigned.of_to in H.
Qed.

(** For one Miller index, distinct variant indices give distinct names. *)
Lemma filename_inj (m : miller) (i j : nat) :
  filename m i = filename m j -> i = j.
Proof.
  unfold filename. intros H.
  apply string_append_inj_l in H. apply string_append_inj_l in H.
  apply string_append_inj_l in H. apply string_append_inj_r in H.
  now apply str_index_inj.
Qed.

Lemma filenames_NoDup (m : miller) (n : nat) :
  NoDup (map (filename m) (seq 0 n)).
Proof.
  apply NoDup_map_NoDup_ForallPairs; [|apply seq_NoDup].
  intros i j _ _. apply filename_inj.
Qed.

Lemma string_append_assoc (s t u : string) :
  ((s ++ t) ++ u = s ++ (t ++ u))%string.
Proof. induction s as [|ch s IH]; simpl; [reflexivity | now rewrite IH]. Qed.

(** Two texts that agree, each cut at the first occurrence of [c], have
    the same part before it and the same part after it. *)
Lemma string_split_at (c : ascii) (s1 s2 t1 t2 : string) :
  occurs c s1 = false -> occurs c s2 = false ->
  (s1 ++ String c t1 = s2 ++ String c t2)%string ->
  s1 = s2 /\ t1 = t2.
Proof.
  revert s2. induction s1 as [|d1 s1 IH]; intros [|d2 s2]; simpl;
    intros O1 O2 H.
  - injection H as ->. auto.
  - injection H as -> _. rewrite Ascii.eqb_refl in O2. discriminate.
  - injection H as -> _. rewrite Ascii.eqb_refl in O1. discriminate.
  - injection H as -> H.
    apply orb_false_iff in O1 as [_ O1]. apply orb_false_iff in O2 as [_ O2].
    destruct (IH _ O1 O2 H) as [-> ->]. auto.
Qed.

(** A printed number holds digits only, after a possible sign. *)
Lemma occurs_string_of_uint (c : ascii) (d : Decimal.uint) :
  occurs c "0123456789" = false ->
  occurs c (NilEmpty.string_of_uint d) = false.
Proof.
  intros H. simpl in H.
  repeat (apply orb_false_iff in H; destruct H as [? H]).
  induction d; simpl; try reflexivity; apply orb_false_iff; auto.
Qed.

Lemma occurs_str_int (c : ascii) (z : Z) :
  occurs c "-0123456789" = false -> occurs c (str_int z) = false.
Proof.
  intros H. simpl in H. apply orb_false_iff in H as [Hm H].
  unfold str_int, NilEmpty.string_of_int.
  destruct (Z.to_int z); simpl; rewrite ?Hm;
    now apply occurs_string_of_uint.
Qed.

Lemma str_int_inj (x y : Z) : str_int x = str_int y -> x = y.
Proof.
  unfold str_int. intros H.
  apply (f_equal NilEmpty.int_of_string) in H.
  rewrite !NilEmpty.isi in H. injection H as H.
  apply (f_equal Z.of_int) in H.
  now rewrite !DecimalZ.of_to in H.
Qed.

(** A file name is the name of one Miller index and one variant index. *)
Lemma filename_determines_index (m m' : miller) (i j : nat) :
  filename m i = filename m' j -> m = m' /\ i = j.
Proof.
  destruct m as [[h k] l], m' as [[h' k'] l'].
  unfold filename, str_miller. intros H.
  apply string_append_inj_l in H.
  rewrite !string_append_assoc in H. simpl in H.
  injection H as H.
  apply string_split_at in H;
    [|apply occurs_str_int; reflexivity|apply occurs_str_int; reflexivity].
  destruct H as [Hh H]. injection H as H.
  apply string_split_at in H;
    [|apply occurs_str_int; reflexivity|apply occurs_str_int; reflexivity].
  destruct H as [Hk H]. injection H as H.
  apply string_split_at in H;
    [|apply occurs_str_int; reflexivity|apply occurs_str_int; reflexivity].
  destruct H as [Hl H]. injection H as H.
  apply string_append_inj_r in H.
  apply str_int_inj in Hh, Hk, Hl. apply str_index_inj in H.
  subst. auto.
Qed.

(** ** Rounding *)


Lemma round_half_even_nonneg (m k : Z) :
  0 <= m -> 0 < k -> 0 <= round_half_even m k.
Proof.
  intros Hm Hk. unfold round_half_even.
  assert (HP : 0 < 2 ^ k) by (apply Z.pow_pos_nonneg; lia).
  pose proof (Z.div_pos m (2 ^ k) Hm HP) as Q.
  destruct (2 * (m mod 2 ^ k) ?= 2 ^ k); [destruct (Z.even _)| |]; lia.
Qed.

(** It is at least 1 exactly when [m / 2^k] exceeds one half. *)
Lemma round_half_even_ge_1 (m k : Z) :
  0 <= m -> 0 < k ->
  (1 <= round_half_even m k <-> 2 ^ k < 2 * m).
Proof.
  intros Hm Hk. unfold round_half_even.
  assert (HP : 0 < 2 ^ k) by (apply Z.pow_pos_nonneg; lia).
  pose proof (Z.div_mod m (2 ^ k) ltac:(lia)) as D.
  pose proof (Z.mod_pos_bound m (2 ^ k) HP) as B.
  pose proof (Z.div_pos m (2 ^ k) Hm HP) as Q.
  set (P := 2 ^ k) in *. set (q := m / P) in *. set (r := m mod P) in *.
  destruct (Z.compare_spec (2 * r) P) as [E|L|G].
  - destruct (Z.even q) eqn:Ev.
    + split; nia.
    + assert (q <> 0) by (intros ->; discriminate). split; nia.
  - split; nia.
  - split; nia.
Qed.




(** There is one such integer: the tie rule leaves no choice. *)
Lemma nearest_even_integer_unique (x : float) (n1 n2 : Z) :
  nearest_even_integer x n1 -> nearest_even_integer x n2 -> n1 = n2.
Proof.
  intros [N1 T1] [N2 T2].
  destruct x as [s|s| |s m e]; cbn [nearest_integer halfway] in *;
    try contradiction; [congruence|].
  destruct (0 <=? e) eqn:L; [congruence|]. apply Z.leb_gt in L.
  assert (HP : 0 < 2 ^ (- e)) by (apply Z.pow_pos_nonneg; lia).
  set (P := 2 ^ (- e)) in *. set (v := cond_Zopp s (Z.pos m)) in *.
  assert (D : n1 = n2 \/ n2 = n1 + 1 \/ n1 = n2 + 1) by nia.
  destruct D as [D|[D|D]]; [exact D| |]; exfalso; subst.
  - assert (E1 : Z.even n1 = true) by (apply T1; split; [lia|nia]).
    assert (E2 : Z.even (n1 + 1) = true) by (apply T2; split; [lia|nia]).
    rewrite Z.add_1_r, Z.even_succ, <- Z.negb_even, E1 in E2. discriminate.
  - assert (E2 : Z.even n2 = true) by (apply T2; split; [lia|nia]).
    assert (E1 : Z.even (n2 + 1) = true) by (apply T1; split; [lia|nia]).
    rewrite Z.add_1_r, Z.even_succ, <- Z.negb_even, E2 in E1. discriminate.
Qed.

(** For a float whose sign bit is clear it is not negative, and it is at
    least 1 exactly when the float exceeds one half. *)
Lemma to_int_round0_sign_clear (x : float) (n : Z) :
  sign_clear x -> to_int (round0 x) = inr n ->
  0 <= n /\ (1 <= n <-> above_half x).
Proof.
  destruct x as [s|s| |s m e]; unfold round0, sign_clear, above_half;
    try discriminate; intros ->.
  - unfold to_int. intros [= <-]. split; [lia | split; [lia | tauto]].
  - destruct (0 <=? e) eqn:E.
    + unfold to_int. rewrite E. unfold cond_Zopp.
      apply Z.leb_le in E.
      assert (0 < 2 ^ e) by (apply Z.pow_pos_nonneg; lia).
      set (v := Z.pos m * 2 ^ e). assert (1 <= v) by (subst v; nia).
      intros [= <-]. split; [lia | tauto].
    + apply Z.leb_gt in E.
      pose proof (round_half_even_ge_1 (Zpos m) (- e) ltac:(lia) ltac:(lia))
        as G.
      pose proof (round_half_even_nonneg (Zpos m) (- e) ltac:(lia) ltac:(lia))
        as NN.
      destruct (round_half_even (Z.pos m) (- e)) as [|r|r] eqn:R;
        unfold to_int; change (0 <=? 0) with true; cbv iota;
        intros [= <-]; rewrite ?Z.pow_0_r, ?Z.mul_1_r;
        unfold cond_Zopp; split; try lia; exact G.
Qed.

(** ** Division *)

(** Rounding keeps the sign it is given. *)
Lemma binary_round_aux_sign (sx : bool) (mx ex : Z) (lx : location) :
  match binary_round_aux prec emax sx mx ex lx with
  | S754_zero s | S754_infinity s | S754_finite s _ _ => s = sx
  | S754_nan => True
  end.
Proof.
  unfold binary_round_aux.
  destruct (shr_fexp prec emax mx ex lx) as [mrs' e'].
  destruct (shr_fexp prec emax _ e' loc_Exact) as [mrs'' e''].
  destruct (shr_m mrs''); [reflexivity | | exact I].
  destruct (e'' <=? emax - prec); reflexivity.
Qed.

(** The quotient of two positive floats has a clear sign bit. *)
Lemma SFdiv_positive (x y : float) :
  positive_finite x -> positive_finite y -> sign_clear (SFdiv prec emax x y).
Proof.
  intros (mx & ex & ->) (my & ey & ->). unfold SFdiv.
  destruct (SFdiv_core_binary prec emax (Z.pos mx) ex (Z.pos my) ey)
    as [[mz ez] lz].
  pose proof (binary_round_aux_sign (xorb false false) mz ez lz) as S.
  unfold sign_clear.
  destruct (binary_round_aux prec emax (xorb false false) mz ez lz);
    auto.
Qed.

Lemma truediv_positive (x y : float) :
  positive_finite y -> truediv x y = inr (SFdiv prec emax x y).
Proof. intros (my & ey & ->). reflexivity. Qed.

(** ** What one call of [surface_generator] does *)

Section Claims.

Context {Structure Slab : Type} {lib : Pymatgen Structure Slab}.

Variables thickness width depth padding : float.
Variable rhombohedral_miller : miller.

Lemma mil_None_of_no_family :
  (forall members canonical,
     In (members, canonical) families -> ~ In rhombohedral_miller members) ->
  mil rhombohedral_miller = None.
Proof.
  intros H. destruct (mil rhombohedral_miller) as [c|] eqn:E; [|reflexivity].
  rewrite mil_first_match in E.
  destruct (first_match_Some _ _ _ E) as [mem [I M]].
  exfalso. exact (H _ _ I M).
Qed.

(** C2, amended.  For an index in none of the four lists the chain raises
    nothing and binds nothing, and the call does not go on: reading [mil]
    for the [SlabGenerator] call raises [UnboundLocalError].  The cell has
    been loaded by then; no generator is built and no file is written. *)
Theorem unsupported_index_raises_UnboundLocalError :
  (forall members canonical,
     In (members, canonical) families -> ~ In rhombohedral_miller members) ->
  mil rhombohedral_miller = None /\
  run thickness width depth rhombohedral_miller padding
  = (inl UnboundLocalError, [Call_from_file "Fe2O3_orth.cif"]) /\
  generator_calls
    (snd (run thickness width depth rhombohedral_miller padding)) = [] /\
  files_written
    (snd (run thickness width depth rhombohedral_miller padding)) = [].
Proof.
  intros H. pose proof (mil_None_of_no_family H) as E.
  rewrite (run_unbound _ _ _ _ _ E). repeat split. exact E.
Qed.

(** C8.  For a supported index the script builds exactly one
    [SlabGenerator], from the cell loaded from ["Fe2O3_orth.cif"], the
    translated index, [min_slab_size = thickness],
    [min_vacuum_size = padding], [center_slab = True], [lll_reduce = True]
    and [primitive = False]. *)
Theorem generator_called_with_requested_arguments (translated : miller) :
  mil rhombohedral_miller = Some translated ->
  generator_calls
    (snd (run thickness width depth rhombohedral_miller padding))
  = [ {| initial_structure := from_file "Fe2O3_orth.cif";
         miller_index := translated;
         min_slab_size := thickness;
         min_vacuum_size := padding;
         center_slab := true;
         lll_reduce := true;
         primitive := false |} ].
Proof.
  intros E. rewrite (run_bound _ _ _ _ _ _ E).
  destruct (mult width _ lattice_a) as [e|ma]; [reflexivity|].
  destruct (mult depth _ lattice_b) as [e|mb]; [reflexivity|].
  cbn [snd]. rewrite generator_calls_app, generator_calls_loop_outcome.
  reflexivity.
Qed.

(** C6.  When the library returns no slab, the call fails: [slabs[0]] on
    line 90 raises [IndexError], after the generator has been asked and
    before any file is written. *)
Theorem empty_slab_list_raises_IndexError (translated : miller) :
  mil rhombohedral_miller = Some translated ->
  get_slabs (requested_args thickness padding translated) = [] ->
  run thickness width depth rhombohedral_miller padding
  = (inl IndexError,
     [ Call_from_file "Fe2O3_orth.cif";
       Call_SlabGenerator (requested_args thickness padding translated);
       Call_get_slabs ]) /\
  files_written
    (snd (run thickness width depth rhombohedral_miller padding)) = [].
Proof.
  intros E S. rewrite (run_bound _ _ _ _ _ _ E). rewrite S.
  split; reflexivity.
Qed.

Lemma calls_return_of_no_raise m ma mb (s : Slab) (i : nat) :
  make_supercell_raises s [ma; mb; 1] = None ->
  get_orthogonal_c_slab_raises (make_supercell s [ma; mb; 1]) = None ->
  to_raises (make_supercell s [ma; mb; 1]) (filename m i) = None ->
  calls_return m ma mb (s, i).
Proof.
  intros H1 H2 H3. unfold calls_return, first_raise. cbn [fst snd].
  now rewrite H1, H2, H3.
Qed.

(** C7, amended.  When the index is supported, both multipliers are
    computed (which needs at least one slab) and none of the three library
    calls raises on any slab, the call returns normally and writes one file
    per slab, in the order of the slabs: the file at position [i] is named
    ["slab_" ++ str(rhombohedral_miller) ++ "_" ++ str(i) ++ ".cif"] with
    the index as it was passed in, [i] runs over [0 .. n-1], the names are
    pairwise different, each is the name of no other Miller index, and the
    content is the scaled slab [i]. *)
Theorem one_file_per_slab_in_order
  (translated : miller) (slabs : list Slab) (mult_a mult_b : Z) :
  mil rhombohedral_miller = Some translated ->
  get_slabs (requested_args thickness padding translated) = slabs ->
  slabs <> [] ->
  mult width slabs lattice_a = inr mult_a ->
  mult depth slabs lattice_b = inr mult_b ->
  (forall s i,
     In (s, i) (zip_arange slabs) ->
     make_supercell_raises s [mult_a; mult_b; 1] = None /\
     get_orthogonal_c_slab_raises (make_supercell s [mult_a; mult_b; 1])
     = None /\
     to_raises (make_supercell s [mult_a; mult_b; 1])
               (filename rhombohedral_miller i) = None) ->
  fst (run thickness width depth rhombohedral_miller padding) = inr tt /\
  List.length
    (files_written
       (snd (run thickness width depth rhombohedral_miller padding)))
  = List.length slabs /\
  map fst
    (files_written
       (snd (run thickness width depth rhombohedral_miller padding)))
  = map (fun i => ("slab_" ++ str_miller rhombohedral_miller ++ "_"
                   ++ str_index i ++ ".cif")%string)
        (seq 0 (List.length slabs)) /\
  NoDup
    (map fst
       (files_written
          (snd (run thickness width depth rhombohedral_miller padding)))) /\
  (forall name other j,
     In name
        (map fst
           (files_written
              (snd (run thickness width depth rhombohedral_miller padding))))
     -> name = filename other j -> other = rhombohedral_miller) /\
  map snd
    (files_written
       (snd (run thickness width depth rhombohedral_miller padding)))
  = map (fun s => make_supercell s [mult_a; mult_b; 1]) slabs.
Proof.
  intros E S _ Ha Hb Ok. rewrite (run_bound _ _ _ _ _ _ E). rewrite S, Ha, Hb.
  rewrite loop_outcome_return.
  2:{ intros [s i] I. destruct (Ok s i I) as (H1 & H2 & H3).
      now apply calls_return_of_no_raise. }
  cbn [fst snd]. rewrite files_written_app, files_written_loop.
  change (files_written _ ++ ?l) with l.
  assert (N : map fst
    (map (fun si : Slab * nat =>
            (filename rhombohedral_miller (snd si),
             make_supercell (fst si) [mult_a; mult_b; 1]))
         (zip_arange slabs))
    = map (filename rhombohedral_miller) (seq 0 (List.length slabs))).
  { rewrite map_map. cbn [fst].
    rewrite <- (map_map snd (filename rhombohedral_miller)).
    now rewrite zip_arange_snd. }
  split; [reflexivity|]. split; [|split; [|split; [|split]]].
  - now rewrite length_map, zip_arange_length.
  - exact N.
  - rewrite N. apply filenames_NoDup.
  - rewrite N. intros name other j I ->.
    apply in_map_iff in I. destruct I as [i [I _]].
    symmetry. exact (proj1 (filename_determines_index _ _ _ _ I)).
  - rewrite map_map. cbn [snd].
    rewrite <- (map_map fst (fun s => make_supercell s [mult_a; mult_b; 1])).
    now rewrite zip_arange_fst.
Qed.



(** C4, amended.  For positive finite [width] and [depth] and positive
    finite lattice lengths of the first slab, the computed multipliers are
    never negative, and each is at least 1 exactly when its float quotient
    exceeds one half; a quotient of at most one half gives 0. *)
Theorem multipliers_nonnegative
  (s0 : Slab) (rest : list Slab) (mult_a mult_b : Z) :
  positive_finite width -> positive_finite depth ->
  positive_finite (lattice_a s0) -> positive_finite (lattice_b s0) ->
  mult width (s0 :: rest) lattice_a = inr mult_a ->
  mult depth (s0 :: rest) lattice_b = inr mult_b ->
  0 <= mult_a /\ 0 <= mult_b /\
  (1 <= mult_a <-> above_half (SFdiv prec emax width (lattice_a s0))) /\
  (1 <= mult_b <-> above_half (SFdiv prec emax depth (lattice_b s0))).
Proof.
  intros Pw Pd Pa Pb Ha Hb.
  unfold mult in Ha, Hb. cbn [getitem0] in Ha, Hb.
  rewrite (truediv_positive _ _ Pa) in Ha.
  rewrite (truediv_positive _ _ Pb) in Hb.
  destruct (to_int_round0_sign_clear _ _ (SFdiv_positive _ _ Pw Pa) Ha)
    as [A1 A2].
  destruct (to_int_round0_sign_clear _ _ (SFdiv_positive _ _ Pd Pb) Hb)
    as [B1 B2].
  auto.
Qed.

End Claims.

(** ** The script on the test library *)

Ltac in_no_family :=
  let H := fresh in
  intros ? ? H; simpl in H;
  repeat (destruct H as [H|H]; [injection H as <- <-|]);
  try contradiction;
  let M := fresh in
  intro M; simpl in M;
  repeat (destruct M as [M|M]; [discriminate M|]); contradiction.

Lemma unsupported_index_raises_UnboundLocalError_witness :
  test_run [slab_5_4] f_21 (1,1,1)
  = (inl UnboundLocalError, [Call_from_file "Fe2O3_orth.cif"]).
Proof.
  refine (proj1 (proj2 (unsupported_index_raises_UnboundLocalError
                          (lib := test_lib [slab_5_4])
                          f_10 f_21 f_7_5 f_1 (1,1,1) _))).
  in_no_family.
Defined.

(** C2, as stated, fails at (1,1,1): the index is in none of the lists and
    nothing is bound, but the call does not go on to build a generator with
    some value: it ends there with [UnboundLocalError]. *)
Lemma unsupported_index_does_not_proceed :
  mil (1,1,1) = None /\
  fst (test_run [slab_5_4] f_21 (1,1,1)) = inl UnboundLocalError /\
  ~ (exists args,
       In (Call_SlabGenerator args) (snd (test_run [slab_5_4] f_21 (1,1,1)))).
Proof.
  split; [reflexivity|]. split; [reflexivity|].
  intros [args [H|[]]]. discriminate H.
Qed.

Lemma generator_called_with_requested_arguments_witness :
  generator_calls (snd (test_run [slab_5_4] f_21 (1,-1,0)))
  = [ {| initial_structure := tt; miller_index := (1,1,0);
         min_slab_size := f_10; min_vacuum_size := f_1;
         center_slab := true; lll_reduce := true; primitive := false |} ].
Proof.
  apply (generator_called_with_requested_arguments
           (lib := test_lib [slab_5_4]) f_10 f_21 f_7_5 f_1 (1,-1,0) (1,1,0)).
  reflexivity.
Defined.

Lemma empty_slab_list_raises_IndexError_witness :
  fst (test_run [] f_21 (1,0,0)) = inl IndexError /\
  files_written (snd (test_run [] f_21 (1,0,0))) = [].
Proof.
  destruct (empty_slab_list_raises_IndexError
              (lib := test_lib []) f_10 f_21 f_7_5 f_1 (1,0,0) (1,1,0)
              eq_refl eq_refl) as [R F].
  split; [|exact F].
  unfold test_run. rewrite R. reflexivity.
Defined.

(** C7, as stated, fails for a width below half the lattice length: with
    [width = 1.0] and two slabs, of which the first has [a = 5.0], the count
    [mult_a] is 0, the first [make_supercell] call raises, and the call ends
    without a file for either slab. *)
Lemma zero_multiplier_writes_no_file :
  mil (1,-1,0) = Some (1,1,0) /\
  List.length [slab_5_4; slab_10_8] = 2%nat /\
  fst (test_run [slab_5_4; slab_10_8] f_1 (1,-1,0))
  = inl (LibraryError "LinAlgError") /\
  scalings_applied (snd (test_run [slab_5_4; slab_10_8] f_1 (1,-1,0)))
  = [ (0%nat, [0; 2; 1]) ] /\
  files_written (snd (test_run [slab_5_4; slab_10_8] f_1 (1,-1,0))) = [].
Proof. repeat split; vm_compute; reflexivity. Qed.

Lemma one_file_per_slab_in_order_witness :
  map fst
    (files_written (snd (test_run [slab_5_4; slab_10_8] f_21 (1,-1,0))))
  = [ "slab_(1, -1, 0)_0.cif"; "slab_(1, -1, 0)_1.cif" ]%string.
Proof.
  refine (proj1 (proj2 (proj2
    (one_file_per_slab_in_order
       (lib := test_lib [slab_5_4; slab_10_8])
       f_10 f_21 f_7_5 f_1 (1,-1,0) (1,1,0) [slab_5_4; slab_10_8] 4 2
       eq_refl eq_refl _ _ _ _)))).
  - discriminate.
  - vm_compute. reflexivity.
  - vm_compute. reflexivity.
  - intros s i _. repeat split.
Defined.



(** C4, as stated, fails for [width = 1.0] on a slab of length [5.0]: the
    quotient [0.2] rounds to 0, and the slab is scaled by [[0, 2, 1]]. *)
Lemma small_width_gives_zero_multiplier :
  positive_finite f_1 /\ positive_finite f_7_5 /\
  mult f_1 [slab_5_4] a = inr 0 /\
  scalings_applied (snd (test_run [slab_5_4] f_1 (0,0,1)))
  = [ (0%nat, [0; 2; 1]) ].
Proof.
  split; [vm_compute; eauto|]. split; [vm_compute; eauto|].
  split; vm_compute; reflexivity.
Qed.

Lemma multipliers_nonnegative_witness :
  0 <= 4 /\ 0 <= 2 /\
  (1 <= 4 <-> above_half (SFdiv prec emax f_21 (a slab_5_4))) /\
  (1 <= 2 <-> above_half (SFdiv prec emax f_7_5 (b slab_5_4))).
Proof.
  apply (multipliers_nonnegative
           (lib := test_lib [slab_5_4]) f_21 f_7_5 slab_5_4 [] 4 2).
  - vm_compute. eauto.
  - vm_compute. eauto.
  - vm_compute. eauto.
  - vm_compute. eauto.
  - vm_compute. reflexivity.
  - vm_compute. reflexivity.
Defined.

(** C5, evaluated.  On a slab with a tilted [c] vector the file holds the
    scaled slab as [make_supercell] left it, [c] still tilted: the slab that
    [get_orthogonal_c_slab] returns is another one, and it is not what is
    written. *)
Theorem written_slab_is_not_orthogonalized :
  files_written (snd (test_run [slab_5_4] f_21 (1,0,0)))
  = [ ("slab_(1, 0, 0)_0.cif"%string,
       make_supercell (Pymatgen := test_lib [slab_5_4]) slab_5_4 [4; 2; 1]) ]
  /\
  c_orthogonal
    (make_supercell (Pymatgen := test_lib [slab_5_4]) slab_5_4 [4; 2; 1])
  = false /\
  get_orthogonal_c_slab (Pymatgen := test_lib [slab_5_4])
    (make_supercell (Pymatgen := test_lib [slab_5_4]) slab_5_4 [4; 2; 1])
  <> make_supercell (Pymatgen := test_lib [slab_5_4]) slab_5_4 [4; 2; 1].
Proof.
  split; [vm_compute; reflexivity|]. split; [reflexivity|].
  intros H. apply (f_equal c_orthogonal) in H. discriminate H.
Qed.

(** * Further properties of the script *)

(** ** The translation table as a whole *)

Lemma mil_Some_In (m c : miller) :
  mil m = Some c ->
  In m (plane_100 ++ plane_001 ++ plane_110 ++ plane_012).
Proof.
  rewrite mil_first_match. intros E.
  destruct (first_match_Some _ _ _ E) as [mem [I M]].
  rewrite !in_app_iff. simpl in I.
  repeat (destruct I as [I|I]; [injection I as <- <-; tauto|]).
  destruct I.
Qed.

(** The chain binds [mil] exactly for the twenty indices of the four lists,
    and only ever to one of four values. *)
Theorem mil_domain_and_range (m : miller) :
  (mil m <> None <->
   In m (plane_100 ++ plane_001 ++ plane_110 ++ plane_012)) /\
  (forall c, mil m = Some c -> In c [(1,1,0); (0,0,1); (1,0,0); (0,2,2)]).
Proof.
  split; [split|].
  - destruct (mil m) as [c|] eqn:E; [intros _|congruence].
    exact (mil_Some_In _ _ E).
  - rewrite !in_app_iff. unfold mil.
    intros [H|[H|[H|H]]]; apply contains_In in H;
      repeat match goal with
             | |- context [contains m ?l] =>
                 destruct (contains m l); try discriminate
             end.
  - unfold mil. intros c.
    repeat match goal with
           | |- context [contains m ?l] => destruct (contains m l)
           end; intros [= <-]; simpl; auto.
Qed.

(** Among the supported indices, the opposite face is translated alike
    except at (0,1,2) and (0,-2,-2), whose opposites are unsupported. *)
Theorem mil_neg_iff (m : miller) :
  mil m <> None ->
  (mil (neg m) = mil m <-> m <> (0,1,2) /\ m <> (0,-2,-2)).
Proof.
  intros S. destruct (mil m) as [c|] eqn:E; [clear S|congruence].
  pose proof (mil_Some_In _ _ E) as I. rewrite <- E. clear E c.
  simpl in I.
  repeat (destruct I as [<-|I];
          [split; [intros H; first [discriminate H | split; discriminate]
                  |intros [H1 H2]; first [reflexivity | congruence]]|]).
  destruct I.
Qed.

Lemma mil_neg_iff_witness :
  mil (neg (1,-1,2)) = mil (1,-1,2) <->
  (1,-1,2) <> (0,1,2) /\ (1,-1,2) <> (0,-2,-2).
Proof.
  apply (mil_neg_iff (1,-1,2)). discriminate.
Defined.

(** ** Which exception, and when *)

Section Failures.

Context {Structure Slab : Type} {lib : Pymatgen Structure Slab}.

Variables thickness width depth padding : float.
Variable rhombohedral_miller : miller.

(** [int(round(x, 0))] raises only on an infinity or a NaN. *)
Lemma to_int_round0_raises (x : float) (e : exn) :
  to_int (round0 x) = inl e ->
  (e = OverflowError /\ exists s, x = S754_infinity s) \/
  (e = ValueError /\ x = S754_nan).
Proof.
  destruct x as [s|s| |s m ex]; unfold round0.
  - discriminate.
  - intros [= <-]. left. eauto.
  - intros [= <-]. right. auto.
  - destruct (0 <=? ex); [discriminate|].
    destruct (round_half_even (Z.pos m) (- ex)); discriminate.
Qed.





(** The files of a call are always a front part of the intended ones:
    [slab_<index>_0 .. slab_<index>_(k-1)] in this order, for some [k] that
    is at most the number of slabs.  [k] is 0 when the call ends with an
    exception of the script itself, all of which come before the loop, and
    [k] is the number of slabs, at least 1, when the call returns: no call
    returns without having written a file. *)
Theorem run_files_front_part :
  exists k,
    map fst
      (files_written
         (snd (run thickness width depth rhombohedral_miller padding)))
    = map (filename rhombohedral_miller) (seq 0 k) /\
    (forall translated,
       mil rhombohedral_miller = Some translated ->
       (k <= List.length
               (get_slabs (requested_args thickness padding translated)))%nat)
    /\
    (forall e,
       fst (run thickness width depth rhombohedral_miller padding) = inl e ->
       (forall class_name, e <> LibraryError class_name) ->
       k = 0%nat) /\
    (fst (run thickness width depth rhombohedral_miller padding) = inr tt ->
     exists translated,
       mil rhombohedral_miller = Some translated /\
       k = List.length
             (get_slabs (requested_args thickness padding translated)) /\
       (1 <= k)%nat).
Proof.
  destruct (mil rhombohedral_miller) as [c|] eqn:E.
  - rewrite (run_bound _ _ _ _ _ _ E).
    destruct (mult width _ lattice_a) as [e|ma] eqn:Ha.
    { exists 0%nat. cbn. repeat split; try lia; discriminate. }
    destruct (mult depth _ lattice_b) as [e|mb] eqn:Hb.
    { exists 0%nat. cbn. repeat split; try lia; discriminate. }
    destruct (files_written_loop_outcome rhombohedral_miller ma mb
                (zip_arange (get_slabs (requested_args thickness padding c))))
      as (k & Hk & Hs & Hr).
    rewrite zip_arange_length in Hk, Hr.
    exists k. cbn [fst snd]. split; [|split; [|split]].
    + rewrite files_written_app, Hs.
      change (files_written _ ++ ?l) with l.
      rewrite map_map. cbn [fst].
      rewrite <- (map_map snd (filename rhombohedral_miller)).
      now rewrite zip_arange_firstn_snd.
    + intros t [= <-]. exact Hk.
    + intros e R L. exfalso.
      destruct (loop_outcome_result rhombohedral_miller ma mb
                  (zip_arange
                     (get_slabs (requested_args thickness padding c))))
        as [R'|[n R']]; rewrite R' in R; [discriminate R|].
      injection R as <-. exact (L n eq_refl).
    + intros R. exists c. split; [reflexivity|].
      pose proof (Hr R) as ->. split; [reflexivity|].
      destruct (get_slabs (requested_args thickness padding c)); cbn;
        [discriminate Ha|lia].
  - rewrite (run_unbound _ _ _ _ _ E).
    exists 0%nat. cbn. repeat split; try discriminate.
Qed.

End Failures.

(** ** The multiplier of positive inputs *)

Lemma shr_1_nonneg (mrs : shr_record) :
  0 <= shr_m mrs -> 0 <= shr_m (shr_1 mrs).
Proof.
  destruct mrs as [m r s]. cbn [shr_m]. unfold shr_1.
  destruct m as [|[p|p|]|p]; cbn [shr_m]; lia.
Qed.

Lemma iter_pos_shr_1_nonneg (p : positive) (mrs : shr_record) :
  0 <= shr_m mrs -> 0 <= shr_m (iter_pos shr_1 p mrs).
Proof.
  revert mrs. induction p as [p IH|p IH|]; intros mrs H; cbn [iter_pos].
  - apply IH, IH, shr_1_nonneg, H.
  - apply IH, IH, H.
  - apply shr_1_nonneg, H.
Qed.

Lemma shr_fexp_nonneg (m e : Z) (l : location) :
  0 <= m -> 0 <= shr_m (fst (shr_fexp prec emax m e l)).
Proof.
  intros H. unfold shr_fexp, shr.
  assert (R : 0 <= shr_m (shr_record_of_loc m l))
    by (destruct l as [|[]]; exact H).
  destruct (fexp prec emax (Zdigits2 m + e) - e); cbn [fst]; auto.
  now apply iter_pos_shr_1_nonneg.
Qed.

Lemma round_nearest_even_nonneg (m : Z) (l : location) :
  0 <= m -> 0 <= round_nearest_even m l.
Proof.
  intros H. unfold round_nearest_even.
  destruct l as [|[]]; try destruct (Z.even m); lia.
Qed.

(** Rounding a mantissa that is not negative never gives a NaN. *)
Lemma binary_round_aux_not_nan (sx : bool) (mx ex : Z) (lx : location) :
  0 <= mx -> binary_round_aux prec emax sx mx ex lx <> S754_nan.
Proof.
  intros H. unfold binary_round_aux.
  pose proof (shr_fexp_nonneg mx ex lx H) as H1.
  destruct (shr_fexp prec emax mx ex lx) as [mrs' e']. cbn [fst] in H1.
  pose proof (shr_fexp_nonneg _ e' loc_Exact
                (round_nearest_even_nonneg _ (loc_of_shr_record mrs') H1))
    as H2.
  destruct (shr_fexp prec emax _ e' loc_Exact) as [mrs'' e''].
  cbn [fst] in H2.
  destruct (shr_m mrs'') as [|p|p]; [discriminate| |lia].
  destruct (e'' <=? emax - prec); discriminate.
Qed.

(** The quotient of two positive floats is not a NaN. *)
Lemma SFdiv_positive_not_nan (x y : float) :
  positive_finite x -> positive_finite y -> SFdiv prec emax x y <> S754_nan.
Proof.
  intros (mx & ex & ->) (my & ey & ->). unfold SFdiv, SFdiv_core_binary.
  set (s := ex - ey - _).
  set (m' := match s with Z.pos _ => Z.shiftl (Z.pos mx) s
                        | 0 => Z.pos mx | Z.neg _ => 0 end).
  assert (Hm : 0 <= m').
  { subst m'. destruct s; try lia. apply Z.shiftl_nonneg. lia. }
  pose proof (Z_div_mod m' (Z.pos my) ltac:(lia)) as D.
  destruct (Z.div_eucl m' (Z.pos my)) as [q r].
  apply binary_round_aux_not_nan. nia.
Qed.

Section PositiveInputs.

Context {Slab : Type}.

(** For a positive finite request and a positive finite lattice length of
    the first slab, the multiplier is computed and is not negative, unless
    the float quotient overflows to [+inf], which raises [OverflowError];
    no other exception is possible. *)
Theorem mult_of_positive_inputs
  (extent : float) (s0 : Slab) (rest : list Slab)
  (lattice_x : Slab -> float) :
  positive_finite extent -> positive_finite (lattice_x s0) ->
  (exists n, mult extent (s0 :: rest) lattice_x = inr n /\ 0 <= n) \/
  (mult extent (s0 :: rest) lattice_x = inl OverflowError /\
   SFdiv prec emax extent (lattice_x s0) = S754_infinity false).
Proof.
  intros Pe Px. unfold mult. cbn [getitem0].
  rewrite (truediv_positive _ _ Px).
  pose proof (SFdiv_positive _ _ Pe Px) as Sg.
  pose proof (SFdiv_positive_not_nan _ _ Pe Px) as Nn.
  destruct (to_int (round0 (SFdiv prec emax extent (lattice_x s0))))
    as [e|n] eqn:T.
  - right. apply to_int_round0_raises in T.
    destruct T as [[-> [s I]]|[_ N]]; [|contradiction].
    rewrite I in Sg |- *. cbn [sign_clear] in Sg. subst s. auto.
  - left. exists n. split; [reflexivity|].
    now apply (to_int_round0_sign_clear _ _ Sg T).
Qed.

End PositiveInputs.

Lemma mult_of_positive_inputs_witness :
  (exists n, mult f_21 [slab_5_4] a = inr n /\ 0 <= n) \/
  (mult f_21 [slab_5_4] a = inl OverflowError /\
   SFdiv prec emax f_21 (a slab_5_4) = S754_infinity false).
Proof.
  apply (mult_of_positive_inputs f_21 slab_5_4 [] a).
  - vm_compute. eauto.
  - vm_compute. eauto.
Defined.

(** ** File names of different calls *)

(** The name of an output file determines both the Miller index and the
    variant index: two calls with different indices never write to the
    same name. *)
Theorem filename_inj_both (m m' : miller) (i j : nat) :
  filename m i = filename m' j -> m = m' /\ i = j.
Proof. exact (filename_determines_index m m' i j). Qed.

Lemma filename_inj_both_witness :
  (1,-1,0) = (1,-1,0) /\ 3%nat = 3%nat.
Proof.
  apply (filename_inj_both (1,-1,0) (1,-1,0) 3 3). reflexivity.
Defined.

(** ** What the re-orthogonalization changes *)

(** Whatever [get_orthogonal_c_slab] returns, the call ends alike, makes
    the same library calls and writes the same files with the same
    contents: the slab that the call returns reaches nothing. *)
Theorem run_ignores_get_orthogonal_c_slab
  {Structure Slab : Type} (lib : Pymatgen Structure Slab) (f : Slab -> Slab)
  (thickness width depth : float) (rhombohedral_miller : miller)
  (padding : float) :
  @run _ _ (with_get_orthogonal_c_slab lib f)
       thickness width depth rhombohedral_miller padding
  = @run _ _ lib thickness width depth rhombohedral_miller padding.
Proof.
  destruct (mil rhombohedral_miller) as [c|] eqn:E.
  - rewrite (run_bound (lib := with_get_orthogonal_c_slab lib f)
               _ _ _ _ _ _ E).
    rewrite (run_bound (lib := lib) _ _ _ _ _ _ E).
    reflexivity.
  - rewrite (run_unbound (lib := with_get_orthogonal_c_slab lib f)
               _ _ _ _ _ E).
    now rewrite (run_unbound (lib := lib) _ _ _ _ _ E).
Qed.

(** ** An overflowing quotient *)

(** [2.0 ** 1023 / 2.0 ** -1000] is [+inf], and [int] of it raises. *)
Example mult_overflow :
  mult (of_dyadic 1 1023)
       [ {| a := of_dyadic 1 (-1000); b := of_dyadic 4 0;
            c_orthogonal := true; scaled_by := [] |} ] a
  = inl OverflowError.
Proof. vm_compute. reflexivity. Qed.

(** ** A call on ordinary inputs *)

Section OrdinaryInputs.

Context {Structure Slab : Type} {lib : Pymatgen Structure Slab}.

(** With a supported index, at least one slab, positive finite [width] and
    [depth] and positive finite lattice lengths of the first slab, the call
    returns normally, or it raises [OverflowError] because a quotient is
    [+inf], or an exception comes out of a library call of the loop; the
    script itself raises nothing else. *)
Theorem run_of_positive_inputs
  (thickness width depth padding : float)
  (rhombohedral_miller translated : miller) (s0 : Slab) (rest : list Slab) :
  mil rhombohedral_miller = Some translated ->
  get_slabs (requested_args thickness padding translated) = s0 :: rest ->
  positive_finite width -> positive_finite depth ->
  positive_finite (lattice_a s0) -> positive_finite (lattice_b s0) ->
  fst (run thickness width depth rhombohedral_miller padding) = inr tt \/
  (fst (run thickness width depth rhombohedral_miller padding)
   = inl OverflowError /\
   (SFdiv prec emax width (lattice_a s0) = S754_infinity false \/
    SFdiv prec emax depth (lattice_b s0) = S754_infinity false)) \/
  (exists class_name,
     fst (run thickness width depth rhombohedral_miller padding)
     = inl (LibraryError class_name)).
Proof.
  intros E S Pw Pd Pa Pb. rewrite (run_bound _ _ _ _ _ _ E). rewrite S.
  destruct (mult_of_positive_inputs width s0 rest lattice_a Pw Pa)
    as [[ma [-> _]]|[-> Ia]]; [|right; left; auto].
  destruct (mult_of_positive_inputs depth s0 rest lattice_b Pd Pb)
    as [[mb [-> _]]|[-> Ib]]; [|right; left; auto].
  cbn [fst].
  destruct (loop_outcome_result rhombohedral_miller ma mb
              (zip_arange (s0 :: rest))) as [R|R]; auto.
Qed.

End OrdinaryInputs.

Lemma run_of_positive_inputs_witness :
  fst (test_run [slab_5_4] f_1 (1,0,0)) = inr tt \/
  (fst (test_run [slab_5_4] f_1 (1,0,0)) = inl OverflowError /\
   (SFdiv prec emax f_1 (a slab_5_4) = S754_infinity false \/
    SFdiv prec emax f_7_5 (b slab_5_4) = S754_infinity false)) \/
  (exists class_name,
     fst (test_run [slab_5_4] f_1 (1,0,0)) = inl (LibraryError class_name)).
Proof.
  apply (run_of_positive_inputs (lib := test_lib [slab_5_4])
           f_10 f_1 f_7_5 f_1 (1,0,0) (1,1,0) slab_5_4 []).
  - reflexivity.
  - reflexivity.
  - vm_compute. eauto.
  - vm_compute. eauto.
  - vm_compute. eauto.
  - vm_compute. eauto.
Defined.

(** The four ways a call on the test library ends. *)
Example test_run_outcomes :
  fst (test_run [slab_5_4; slab_10_8] f_21 (0,0,1)) = inr tt /\
  fst (test_run [] f_21 (0,0,1)) = inl IndexError /\
  fst (test_run [slab_5_4] f_21 (0,-1,-2)) = inl UnboundLocalError /\
  fst (test_run [slab_5_4] f_1 (0,0,1)) = inl (LibraryError "LinAlgError").
Proof. repeat split. Qed.
